(** * External UI plugin components of the Magda web client

    A shallow embedding of
    [magda-web-client/src/externalPluginComponents.ts]: the element
    validator [isValidElementType], the component materializer
    [getComponentByRef], the single-slot resolver [getComponent], the
    prop-injection wrapper [wrapComponentWithProps] and the multi-slot
    resolver [getMultipleComponents], over a small model of the JavaScript
    values a plugin bundle can export to the global scope. *)

From Stdlib Require Import ZArith Ascii.
From stdpp Require Import base strings list gmap pretty.

Open Scope string_scope.
Set Warnings "-register-all".

(** ** JavaScript values *)

Module JS.

(** The values a plugin bundle can leave on [window].  Functions (function
    and class components) and objects carry their own enumerable
    string-keyed properties as an association list in key enumeration order;
    the first binding of a key is the one that is read.  Inherited and
    non-enumerable properties are left out: the resolvers read only
    [default] and the keys that [Object.keys] has just listed.  Numbers are
    the integers plus [NaN], which is all that truthiness looks at. *)
Inductive value : Type :=
| VUndefined
| VNull
| VBool (b : bool)
| VNumber (n : Z)
| VNaN
| VString (s : string)
| VSymbol (description : string)
| VFunction (name : string) (own : list (string * value))
| VObject (own : list (string * value))
| VArray (elems : list value).

(** [typeof v] *)
Definition typeof (v : value) : string :=
  match v with
  | VUndefined => "undefined"
  | VNull => "object"
  | VBool _ => "boolean"
  | VNumber _ | VNaN => "number"
  | VString _ => "string"
  | VSymbol _ => "symbol"
  | VFunction _ _ => "function"
  | VObject _ | VArray _ => "object"
  end.

(** ToBoolean: what [!v] and [v ? a : b] look at. *)
Definition truthy (v : value) : bool :=
  match v with
  | VUndefined | VNull | VNaN => false
  | VBool b => b
  | VNumber n => negb (n =? 0)%Z
  | VString s => negb (String.eqb s "")
  | VSymbol _ | VFunction _ _ | VObject _ | VArray _ => true
  end.

(** Own enumerable string-keyed properties, in enumeration order.  An array
    enumerates its indices. *)
Definition own_entries (v : value) : list (string * value) :=
  match v with
  | VFunction _ own | VObject own => own
  | VArray elems => imap (fun i x => (pretty i, x)) elems
  | _ => []
  end.

(** First binding of [key] in an association list. *)
Fixpoint assoc (key : string) (o : list (string * value)) : option value :=
  match o with
  | [] => None
  | (k, v) :: o' => if String.eqb k key then Some v else assoc key o'
  end.

(** Property read [v?.[key]]: a missing property, and any property of
    [null] or [undefined] under optional chaining, reads as [undefined].
    The resolvers read without [?.] only from values they have just found
    truthy, so no read of theirs throws. *)
Definition get (v : value) (key : string) : value :=
  default VUndefined (assoc key (own_entries v)).

(** [Object.keys(v)] *)
Definition Object_keys (v : value) : list string := (own_entries v).*1.

(** An array of strings as a value. *)
Definition string_array (l : list string) : value := VArray (VString <$> l).

End JS.
Import JS.

(** ** Props objects *)

Module Props.

(** A props object is a JavaScript object used as a map from property names
    to values; the order of its keys is never looked at. *)
Abbreviation t := (gmap string value).

(** [{ ...target, ...source }]: every property of [source] is written onto
    a copy of [target], so [source] wins where both have the key. *)
Definition spread (target source : t) : t := source ∪ target.

(** [const { key, ...rest } = o]: the rest object. *)
Definition rest (key : string) (o : t) : t := delete key o.

(** [o.key], [undefined] when the key is missing. *)
Definition read (key : string) (o : t) : value := default VUndefined (o !! key).

End Props.

(** ** Components and elements *)

(** What the host can mount: a value exported by a plugin, a component
    produced by one of the two higher-order components of the materializer,
    or a function component given by its render function.
    [createElement type config children] stands for the call
    [React.createElement(type, config, children)]. *)
Inductive ComponentType : Type :=
| Exported (v : value)
| connect (c : ComponentType)
| withRouter (c : ComponentType)
| FunctionComponent (render : Props.t -> ReactElement)
with ReactElement : Type :=
| createElement (type : ComponentType) (config : Props.t) (children : value).

(** [export const PREFIX = "MagdaPluginComponent"] *)
Definition PREFIX : string := "MagdaPluginComponent".

(** [wrapComponentWithProps(component, overwriteProps)].  The rest object of
    a destructuring is always an object, hence truthy, so
    [restProps ? restProps : {}] is [restProps]. *)
Definition wrapComponentWithProps (component : ComponentType)
    (overwriteProps : Props.t) : ComponentType :=
  FunctionComponent (fun props =>
    let children := Props.read "children" props in
    let restProps := Props.rest "children" props in
    createElement component
      (Props.spread (Props.spread ∅ restProps) overwriteProps)
      children).

(** [window?.[key]]: a key that was never populated reads as [undefined]. *)
Definition window_get (window : gmap string value) (key : string) : value :=
  default VUndefined (window !! key).

Section Resolvers.

(** The host rendering system's own element-type check,
    [ReactIs.isValidElementType]. *)
Variable ReactIs_isValidElementType : value -> bool.

(** [isValidElementType(c)] *)
Definition isValidElementType (c : value) : bool :=
  if negb (truthy c) || String.eqb (typeof c) "string" then false
  else ReactIs_isValidElementType c.

(** [getComponentByRef(componentRef)] *)
Definition getComponentByRef (componentRef : value) : option ComponentType :=
  if negb (truthy componentRef) then None
  else
    let component :=
      if truthy (get componentRef "default")
         && isValidElementType (get componentRef "default")
      then get componentRef "default"
      else if isValidElementType componentRef then componentRef
      else VNull in
    if negb (truthy component) then None
    else Some (withRouter (connect (Exported component))).

(** [getComponent(name)] *)
Definition getComponent (window : gmap string value) (name : string)
    : option ComponentType :=
  let fullComponentName := PREFIX +:+ name in
  let ExternalComponent :=
    if truthy (get (window_get window fullComponentName) "default")
    then get (window_get window fullComponentName) "default"
    else if truthy (window_get window fullComponentName)
    then window_get window fullComponentName
    else VNull in
  getComponentByRef ExternalComponent.

(** The [keys.forEach] loop of [getMultipleComponents]: the two arrays it
    pushes to are threaded through as the accumulator. *)
Definition collectPlugins (exportedValue : value) (keys : list string)
    : list string * list ComponentType :=
  fold_left
    (fun (acc : list string * list ComponentType) key =>
       match getComponentByRef (get exportedValue key) with
       | Some pluginComponent =>
           ((acc.1 ++ [key])%list, (acc.2 ++ [pluginComponent])%list)
       | None => acc
       end)
    keys ([], []).

(** [getMultipleComponents(name)] *)
Definition getMultipleComponents (window : gmap string value) (name : string)
    : option (list ComponentType) :=
  let exportedScopeName := PREFIX +:+ name in
  let exportedValue :=
    if truthy (get (window_get window exportedScopeName) "default")
    then get (window_get window exportedScopeName) "default"
    else if truthy (window_get window exportedScopeName)
    then window_get window exportedScopeName
    else VNull in
  if negb (truthy exportedValue) then None
  else
    match getComponentByRef exportedValue with
    | Some signleComponent => Some [signleComponent]
    | None =>
        if negb (String.eqb (typeof exportedValue) "object") then None
        else
          let keys := Object_keys exportedValue in
          if (length keys =? 0)%nat then None
          else
            let '(extraPluginNames, pluginComponents) :=
              collectPlugins exportedValue keys in
            Some
              (map
                 (fun item =>
                    wrapComponentWithProps item
                      {[ "loadedPluginNames" := string_array extraPluginNames ]})
                 pluginComponents)
    end.

End Resolvers.

Arguments isValidElementType _ _ : simpl never.

(** ** A concrete host check *)

(** An element-type check shaped like the one of react-is, used to run the
    resolvers on examples: strings and functions are element types, and so
    are objects tagged through [$$typeof] as one of React's wrapper kinds. *)
Definition REACT_WRAPPER_TYPES : list string :=
  ["react.lazy"; "react.memo"; "react.provider"; "react.context";
   "react.forward_ref"].

Definition reactIs (type : value) : bool :=
  match type with
  | VString _ | VFunction _ _ => true
  | VObject _ | VArray _ =>
      match get type "$$typeof" with
      | VSymbol d => bool_decide (d ∈ REACT_WRAPPER_TYPES)
      | _ => false
      end
  | _ => false
  end.

(** ** The decision order in the words of the specification *)

(** What the two higher-order components of the materializer make of a
    validated export. *)
Definition decorate (v : value) : ComponentType :=
  withRouter (connect (Exported v)).

(** "If present as an object exposing a valid default, unwraps to that; else
    if the entry itself is valid, uses it directly; else nothing." *)
Definition resolve_by_decision_order (host : value -> bool) (entry : value)
    : option ComponentType :=
  if isValidElementType host (get entry "default")
  then Some (decorate (get entry "default"))
  else if isValidElementType host entry then Some (decorate entry)
  else None.

(** The value both resolvers hand to the materializer for a present entry:
    its [default] property whenever that is truthy, else the entry. *)
Definition defaultOrSelf (entry : value) : value :=
  if truthy (get entry "default") then get entry "default" else entry.

(** The extra props of a member of a multi-slot group. *)
Definition siblingProps (names : list string) : Props.t :=
  {[ "loadedPluginNames" := string_array names ]}.

(** What the multi-slot resolver does with the value it hands on, written
    without the loop accumulator: the surviving keys are the keys whose
    member materializes, in enumeration order. *)
Definition resolveGroup (host : value -> bool) (exportedValue : value)
    : option (list ComponentType) :=
  match getComponentByRef host exportedValue with
  | Some single => Some [single]
  | None =>
      if negb (String.eqb (typeof exportedValue) "object") then None
      else if (length (Object_keys exportedValue) =? 0)%nat then None
      else
        let member key := getComponentByRef host (get exportedValue key) in
        let names :=
          filter (fun key => is_Some (member key)) (Object_keys exportedValue) in
        Some
          (map (fun item => wrapComponentWithProps item (siblingProps names))
               (omap member (Object_keys exportedValue)))
  end.

(** ** Sample exports *)

Definition HeaderPlugin : value := VFunction "HeaderPlugin" [].
Definition GalleryPlugin : value := VFunction "GalleryPlugin" [].
Definition MapPlugin : value := VFunction "MapPlugin" [].

(** A function component that also carries a truthy [default] property that
    is not itself renderable. *)
Definition PluginWithBadDefault : value :=
  VFunction "Plugin" [("default", VNumber 5)].

(** ** Typed slot accessors *)

(** [getPluginHeader()] *)
Definition getPluginHeader (host : value -> bool)
    (window : gmap string value) : option ComponentType :=
  getComponent host window "Header".

(** [getPluginFooter()] *)
Definition getPluginFooter (host : value -> bool)
    (window : gmap string value) : option ComponentType :=
  getComponent host window "Footer".

(** [getPluginDatasetEditButton()] *)
Definition getPluginDatasetEditButton (host : value -> bool)
    (window : gmap string value) : option ComponentType :=
  getComponent host window "DatasetEditButton".

(** [getPluginDatasetLikeButton()] *)
Definition getPluginDatasetLikeButton (host : value -> bool)
    (window : gmap string value) : option ComponentType :=
  getComponent host window "DatasetLikeButton".

(** [getPluginExtraVisualisationSections()] *)
Definition getPluginExtraVisualisationSections (host : value -> bool)
    (window : gmap string value) : option (list ComponentType) :=
  getMultipleComponents host window "ExtraVisualisationSection".

(** ** What a member of a group is given *)

(** The keys of a value whose member materializes, in enumeration order. *)
Definition survivingKeys (host : value -> bool) (exportedValue : value)
    : list string :=
  filter (fun key => is_Some (getComponentByRef host (get exportedValue key)))
         (Object_keys exportedValue).

(** [unit] is a function component that, on any caller props, renders
    [member] with the caller's [children] handed over as the children
    argument and with [loadedPluginNames] set to the array [names]. *)
Definition injectsSiblingNames (unit member : ComponentType)
    (names : list string) : Prop :=
  exists render,
    unit = FunctionComponent render
    /\ forall props : Props.t, exists merged : Props.t,
         render props
         = createElement member merged (Props.read "children" props)
         /\ merged !! "loadedPluginNames" = Some (string_array names).

(** Closed goals are settled by running the definitions. *)
Ltac run := vm_compute; reflexivity.

(** ** Values *)

Lemma falsy_no_properties v key : truthy v = false -> get v key = VUndefined.
Proof. by destruct v. Qed.


(** ** Props objects *)

Lemma lookup_spread (target source : Props.t) k :
  Props.spread target source !! k
  = match source !! k with
    | Some v => Some v
    | None => target !! k
    end.
Proof.
  unfold Props.spread. rewrite lookup_union.
  destruct (source !! k), (target !! k); done.
Qed.

Lemma lookup_rest key (o : Props.t) k :
  Props.rest key o !! k = if String.eqb key k then None else o !! k.
Proof.
  unfold Props.rest. rewrite lookup_delete.
  destruct (String.eqb key k) eqn:E.
  - apply String.eqb_eq in E. by rewrite decide_True.
  - apply String.eqb_neq in E. by rewrite decide_False.
Qed.

(** ** The element validator and the materializer *)

Section Materializer.

Variable host : value -> bool.

Lemma isValidElementType_eq c :
  isValidElementType host c
  = truthy c && negb (String.eqb (typeof c) "string") && host c.
Proof.
  unfold isValidElementType.
  destruct (truthy c); simpl; [|done].
  by destruct (String.eqb (typeof c) "string").
Qed.

Lemma isValidElementType_truthy c :
  isValidElementType host c = true -> truthy c = true.
Proof. rewrite isValidElementType_eq. by destruct (truthy c). Qed.

Lemma isValidElementType_falsy c :
  truthy c = false -> isValidElementType host c = false.
Proof. rewrite isValidElementType_eq. by intros ->. Qed.

(** The materializer follows the decision order on the value it is given. *)
Lemma getComponentByRef_decision v :
  getComponentByRef host v = resolve_by_decision_order host v.
Proof.
  unfold getComponentByRef, resolve_by_decision_order, decorate.
  destruct (truthy v) eqn:Hv; simpl.
  - destruct (isValidElementType host (get v "default")) eqn:Hd.
    + rewrite (isValidElementType_truthy _ Hd). simpl.
      by rewrite (isValidElementType_truthy _ Hd).
    + rewrite andb_false_r.
      destruct (isValidElementType host v) eqn:Hs; [|done].
      by rewrite Hv.
  - rewrite (falsy_no_properties _ _ Hv).
    by rewrite !isValidElementType_falsy.
Qed.

Lemma getComponentByRef_None v :
  getComponentByRef host v = None
  <-> isValidElementType host (get v "default") = false
      /\ isValidElementType host v = false.
Proof.
  rewrite getComponentByRef_decision. unfold resolve_by_decision_order.
  destruct (isValidElementType host (get v "default"));
    destruct (isValidElementType host v); intuition discriminate.
Qed.

Lemma getComponentByRef_valid v :
  isValidElementType host v = true ->
  getComponentByRef host v
  = Some (decorate (if isValidElementType host (get v "default")
                    then get v "default" else v)).
Proof.
  intros Hv. rewrite getComponentByRef_decision.
  unfold resolve_by_decision_order. rewrite Hv.
  by destruct (isValidElementType host (get v "default")).
Qed.

Lemma getComponentByRef_falsy v :
  truthy v = false -> getComponentByRef host v = None.
Proof. unfold getComponentByRef. by intros ->. Qed.

(** The loop of the multi-slot resolver keeps, in order, the keys whose
    member materializes, and the materialized members. *)
Lemma collectPlugins_eq exportedValue keys :
  collectPlugins host exportedValue keys
  = (filter (fun key => is_Some (getComponentByRef host (get exportedValue key)))
            keys,
     omap (fun key => getComponentByRef host (get exportedValue key)) keys).
Proof.
  unfold collectPlugins.
  set (f := fun (acc : list string * list ComponentType) key => _).
  enough (Hgen : forall names comps,
    fold_left f keys (names, comps)
    = ((names ++ filter (fun key =>
          is_Some (getComponentByRef host (get exportedValue key))) keys)%list,
       (comps ++ omap (fun key =>
          getComponentByRef host (get exportedValue key)) keys)%list))
    by apply (Hgen [] []).
  induction keys as [|key keys IH]; intros names comps; simpl.
  - by rewrite !app_nil_r.
  - unfold f at 2. simpl. rewrite filter_cons.
    destruct (getComponentByRef host (get exportedValue key)) as [c|]; simpl.
    + rewrite IH. by rewrite <- !app_assoc.
    + apply IH.
Qed.

(** Both resolvers on a present entry. *)
Lemma getComponent_present (window : gmap string value) name entry :
  window !! (PREFIX +:+ name) = Some entry ->
  getComponent host window name = getComponentByRef host (defaultOrSelf entry).
Proof.
  intros Hw. unfold getComponent, window_get, defaultOrSelf.
  rewrite Hw. simpl.
  destruct (truthy (get entry "default")); [done|].
  destruct (truthy entry) eqn:He; [done|].
  by rewrite !getComponentByRef_falsy.
Qed.

Lemma getMultipleComponents_present (window : gmap string value) name entry :
  window !! (PREFIX +:+ name) = Some entry ->
  getMultipleComponents host window name
  = resolveGroup host (defaultOrSelf entry).
Proof.
  intros Hw. unfold getMultipleComponents, window_get. rewrite Hw. simpl.
  assert (Hval :
    (if truthy (get entry "default") then get entry "default"
     else if truthy entry then entry else VNull)
    = if truthy (defaultOrSelf entry) then defaultOrSelf entry else VNull).
  { unfold defaultOrSelf.
    destruct (truthy (get entry "default")) eqn:Hd; [by rewrite Hd|done]. }
  rewrite Hval. clear Hval.
  unfold resolveGroup.
  destruct (truthy (defaultOrSelf entry)) eqn:Ht; simpl.
  - rewrite Ht. simpl.
    destruct (getComponentByRef host (defaultOrSelf entry)); [done|].
    destruct (String.eqb (typeof (defaultOrSelf entry)) "object"); [|done].
    simpl.
    destruct (length (Object_keys (defaultOrSelf entry)) =? 0)%nat; [done|].
    by rewrite collectPlugins_eq.
  - rewrite (getComponentByRef_falsy _ Ht).
    by destruct (defaultOrSelf entry).
Qed.

End Materializer.

(** ** The element validator *)

(** C7: [isValidElementType v] is true only if [v] is truthy (so neither
    [null] nor [undefined]), is not a string and is accepted by the host's
    element-type check; it is false for every string, for [null] and for
    [undefined]. *)
Theorem isValidElementType_only_renderable (host : value -> bool) (v : value) :
  (isValidElementType host v = true ->
     truthy v = true /\ v <> VNull /\ v <> VUndefined
     /\ typeof v <> "string" /\ host v = true)
  /\ (forall s, isValidElementType host (VString s) = false)
  /\ isValidElementType host VNull = false
  /\ isValidElementType host VUndefined = false.
Proof.
  split; [|split; [intros s|split]; rewrite isValidElementType_eq; simpl;
    [by destruct (String.eqb s "")|done..]].
  rewrite isValidElementType_eq. intros H.
  apply andb_prop in H as [H Hhost]. apply andb_prop in H as [Ht Hs].
  repeat split; try done.
  - by intros ->.
  - by intros ->.
  - intros Heq. by rewrite Heq in Hs.
Qed.

Lemma isValidElementType_only_renderable_witness :
  isValidElementType reactIs HeaderPlugin = true
  /\ truthy HeaderPlugin = true /\ HeaderPlugin <> VNull
  /\ HeaderPlugin <> VUndefined /\ typeof HeaderPlugin <> "string"
  /\ reactIs HeaderPlugin = true.
Proof.
  split; [reflexivity|].
  apply (proj1 (isValidElementType_only_renderable reactIs HeaderPlugin)).
  reflexivity.
Defined.

(** ** Absent slots *)

(** C9: when the registry key of a slot is not populated, both resolvers
    return nothing. *)
Theorem absent_slot_resolves_to_nothing (host : value -> bool)
    (window : gmap string value) (name : string) :
  window !! (PREFIX +:+ name) = None ->
  getComponent host window name = None
  /\ getMultipleComponents host window name = None.
Proof.
  intros Hw. unfold getComponent, getMultipleComponents, window_get.
  by rewrite Hw.
Qed.

Lemma absent_slot_resolves_to_nothing_witness :
  (∅ : gmap string value) !! (PREFIX +:+ "Footer") = None
  /\ getComponent reactIs ∅ "Footer" = None
  /\ getMultipleComponents reactIs ∅ "Footer" = None.
Proof.
  split; [apply lookup_empty|].
  apply (absent_slot_resolves_to_nothing reactIs ∅ "Footer").
  apply lookup_empty.
Defined.

(** ** The prop-injection wrapper *)

(** C6: the wrapper renders the underlying component; a key of the merged
    props reads the extra-props value when the extra props have the key,
    otherwise the caller's value, except that the caller's [children] is
    left out of the merged props and handed over as the children argument. *)
Theorem wrapComponentWithProps_render (component : ComponentType)
    (overwriteProps : Props.t) :
  exists render,
    wrapComponentWithProps component overwriteProps = FunctionComponent render
    /\ forall props : Props.t, exists merged : Props.t,
         render props
         = createElement component merged (Props.read "children" props)
         /\ forall key,
              merged !! key
              = match overwriteProps !! key with
                | Some v => Some v
                | None =>
                    if String.eqb "children" key then None else props !! key
                end.
Proof.
  eexists. split; [reflexivity|].
  intros props. eexists. split; [reflexivity|].
  intros key. rewrite !lookup_spread, lookup_rest, lookup_empty.
  destruct (overwriteProps !! key); [done|].
  destruct (String.eqb "children" key); [done|].
  by destruct (props !! key).
Qed.

(** ** The multi-slot resolver on an object hash *)

Lemma omap_all_None {A B} (f : A -> option B) (l : list A) :
  (forall x, x ∈ l -> f x = None) -> omap f l = [].
Proof.
  induction l as [|x l IH]; intros Hall; simpl; [done|].
  rewrite (Hall x) by apply list_elem_of_here.
  apply IH. intros y Hy. apply Hall. by apply list_elem_of_further.
Qed.

Lemma resolveGroup_hash (host : value -> bool) (hash : value) :
  typeof hash = "object" ->
  Object_keys hash <> [] ->
  isValidElementType host hash = false ->
  isValidElementType host (get hash "default") = false ->
  resolveGroup host hash
  = Some
      (map (fun item =>
              wrapComponentWithProps item
                (siblingProps
                   (filter (fun key =>
                      is_Some (getComponentByRef host (get hash key)))
                      (Object_keys hash))))
           (omap (fun key => getComponentByRef host (get hash key))
                 (Object_keys hash))).
Proof.
  intros Hty Hkeys Hself Hdef. unfold resolveGroup.
  rewrite (proj2 (getComponentByRef_None host hash)) by done.
  rewrite Hty. simpl.
  destruct (Object_keys hash) eqn:Hk; [done|]. by simpl.
Qed.

(** C1 (what the code does): for an object hash with at least one own key
    whose members all fail validation, the multi-slot resolver returns the
    empty sequence, not nothing.  The hash is not itself a renderable and has
    no truthy [default] member, so it is the hash that is enumerated. *)
Theorem getMultipleComponents_all_members_invalid (host : value -> bool)
    (window : gmap string value) (name : string) (hash : value) :
  window !! (PREFIX +:+ name) = Some hash ->
  typeof hash = "object" ->
  Object_keys hash <> [] ->
  isValidElementType host hash = false ->
  truthy (get hash "default") = false ->
  (forall key, key ∈ Object_keys hash ->
     getComponentByRef host (get hash key) = None) ->
  getMultipleComponents host window name = Some []
  /\ getMultipleComponents host window name <> None.
Proof.
  intros Hw Hty Hkeys Hself Hdef Hall.
  rewrite (getMultipleComponents_present host _ _ _ Hw).
  unfold defaultOrSelf. rewrite Hdef.
  rewrite resolveGroup_hash
    by (try done; by apply isValidElementType_falsy).
  by rewrite (omap_all_None _ _ Hall).
Qed.

(** The neighbouring case: a hash with no own key at all resolves to
    nothing. *)
Example getMultipleComponents_empty_hash :
  getMultipleComponents reactIs
    {[ "MagdaPluginComponentExtraVisualisationSection" := VObject [] ]}
    "ExtraVisualisationSection"
  = None.
Proof. run. Qed.

Lemma getMultipleComponents_all_members_invalid_witness :
  getMultipleComponents reactIs
    {[ "MagdaPluginComponentExtraVisualisationSection"
       := VObject [("a", VNumber 5)] ]}
    "ExtraVisualisationSection"
  = Some [].
Proof.
  apply (getMultipleComponents_all_members_invalid reactIs _
           "ExtraVisualisationSection" (VObject [("a", VNumber 5)])).
  - run.
  - reflexivity.
  - discriminate.
  - reflexivity.
  - reflexivity.
  - intros key Hkey. apply list_elem_of_singleton in Hkey as ->. reflexivity.
Defined.

Lemma sibling_wrapper_injects (item : ComponentType) (names : list string) :
  injectsSiblingNames
    (wrapComponentWithProps item
       {[ "loadedPluginNames" := string_array names ]})
    item names.
Proof.
  eexists. split; [reflexivity|].
  intros props. eexists. split; [reflexivity|].
  by rewrite lookup_spread, lookup_singleton_eq.
Qed.

(** C3 (amended): for the hash [{ a: Ca, b: Cb, c: Cc }], not itself a
    renderable, in which [Ca] and [Cc] are valid renderables and neither
    [Cb] nor its [default] property is one, the multi-slot resolver returns
    exactly the two decorated units of [a] and [c], in that order, each
    wrapped so that it renders with [loadedPluginNames] equal to
    [["a", "c"]]. *)
Theorem getMultipleComponents_drops_invalid_member (host : value -> bool)
    (window : gmap string value) (name : string) (Ca Cb Cc : value) :
  window !! (PREFIX +:+ name)
    = Some (VObject [("a", Ca); ("b", Cb); ("c", Cc)]) ->
  isValidElementType host (VObject [("a", Ca); ("b", Cb); ("c", Cc)]) = false ->
  isValidElementType host Ca = true ->
  isValidElementType host Cc = true ->
  isValidElementType host Cb = false ->
  isValidElementType host (get Cb "default") = false ->
  exists da dc ua uc,
    getComponentByRef host Ca = Some da
    /\ getComponentByRef host Cc = Some dc
    /\ getMultipleComponents host window name = Some [ua; uc]
    /\ ua = wrapComponentWithProps da
              {[ "loadedPluginNames" := string_array ["a"; "c"] ]}
    /\ uc = wrapComponentWithProps dc
              {[ "loadedPluginNames" := string_array ["a"; "c"] ]}
    /\ injectsSiblingNames ua da ["a"; "c"]
    /\ injectsSiblingNames uc dc ["a"; "c"].
Proof.
  intros Hw Hself Ha Hc Hb Hbd.
  pose proof (getComponentByRef_valid host Ca Ha) as Hda.
  pose proof (getComponentByRef_valid host Cc Hc) as Hdc.
  assert (Hnone : getComponentByRef host Cb = None)
    by (by apply getComponentByRef_None).
  eexists _, _, _, _. split; [exact Hda|]. split; [exact Hdc|].
  split; [|split; [reflexivity|split; [reflexivity|
    split; apply sibling_wrapper_injects]]].
  rewrite (getMultipleComponents_present host _ _ _ Hw).
  change (defaultOrSelf (VObject [("a", Ca); ("b", Cb); ("c", Cc)]))
    with (VObject [("a", Ca); ("b", Cb); ("c", Cc)]).
  rewrite resolveGroup_hash by done.
  change (Object_keys (VObject [("a", Ca); ("b", Cb); ("c", Cc)]))
    with ["a"; "b"; "c"].
  rewrite !filter_cons, filter_nil. simpl omap.
  change (get (VObject [("a", Ca); ("b", Cb); ("c", Cc)]) "a") with Ca.
  change (get (VObject [("a", Ca); ("b", Cb); ("c", Cc)]) "b") with Cb.
  change (get (VObject [("a", Ca); ("b", Cb); ("c", Cc)]) "c") with Cc.
  rewrite Hda, Hnone, Hdc. reflexivity.
Qed.

Lemma getMultipleComponents_drops_invalid_member_witness :
  getMultipleComponents reactIs
    {[ "MagdaPluginComponentExtraVisualisationSection"
       := VObject [("a", GalleryPlugin); ("b", VString "oops");
                   ("c", MapPlugin)] ]}
    "ExtraVisualisationSection"
  = Some [wrapComponentWithProps (decorate GalleryPlugin)
            {[ "loadedPluginNames" := string_array ["a"; "c"] ]};
          wrapComponentWithProps (decorate MapPlugin)
            {[ "loadedPluginNames" := string_array ["a"; "c"] ]}]
  /\ injectsSiblingNames
       (wrapComponentWithProps (decorate GalleryPlugin)
          {[ "loadedPluginNames" := string_array ["a"; "c"] ]})
       (decorate GalleryPlugin) ["a"; "c"].
Proof.
  destruct (getMultipleComponents_drops_invalid_member reactIs
              {[ "MagdaPluginComponentExtraVisualisationSection"
                 := VObject [("a", GalleryPlugin); ("b", VString "oops");
                             ("c", MapPlugin)] ]}
              "ExtraVisualisationSection"
              GalleryPlugin (VString "oops") MapPlugin)
    as (da & dc & ua & uc & Hda & Hdc & Hres & Hua & Huc & Hia & _).
  - run.
  - reflexivity.
  - reflexivity.
  - reflexivity.
  - reflexivity.
  - reflexivity.
  - injection Hda as <-. injection Hdc as <-. subst ua uc.
    rewrite Hres. split; [reflexivity|exact Hia].
Defined.

(** C3 as stated fails: a member that is not itself a renderable but
    exposes a valid [default] is materialized through that default, so the
    hash [{ a: GalleryPlugin, b: { default: HeaderPlugin }, c: MapPlugin }]
    yields three units with sibling names [["a", "b", "c"]]. *)
Lemma getMultipleComponents_drops_invalid_member_counterexample :
  isValidElementType reactIs GalleryPlugin = true
  /\ isValidElementType reactIs MapPlugin = true
  /\ isValidElementType reactIs (VObject [("default", HeaderPlugin)]) = false
  /\ getMultipleComponents reactIs
       {[ "MagdaPluginComponentExtraVisualisationSection"
          := VObject [("a", GalleryPlugin);
                      ("b", VObject [("default", HeaderPlugin)]);
                      ("c", MapPlugin)] ]}
       "ExtraVisualisationSection"
     = Some [wrapComponentWithProps (decorate GalleryPlugin)
               {[ "loadedPluginNames" := string_array ["a"; "b"; "c"] ]};
             wrapComponentWithProps (decorate HeaderPlugin)
               {[ "loadedPluginNames" := string_array ["a"; "b"; "c"] ]};
             wrapComponentWithProps (decorate MapPlugin)
               {[ "loadedPluginNames" := string_array ["a"; "b"; "c"] ]}].
Proof. repeat split; reflexivity. Qed.

(** ** The multi-slot resolver on a single candidate or a malformed entry *)

(** C4 (amended): when the value the resolver hands to the materializer (the
    entry's [default] property if that is truthy, else the entry itself)
    materializes, the multi-slot resolver returns the one-element sequence
    of that decorated unit, which is a plain decorated export and not a
    [loadedPluginNames] wrapper. *)
Theorem getMultipleComponents_single_candidate (host : value -> bool)
    (window : gmap string value) (name : string) (entry : value)
    (single : ComponentType) :
  window !! (PREFIX +:+ name) = Some entry ->
  getComponentByRef host (defaultOrSelf entry) = Some single ->
  getMultipleComponents host window name = Some [single]
  /\ (exists v, single = decorate v)
  /\ (forall component extraProps,
        single <> wrapComponentWithProps component extraProps).
Proof.
  intros Hw Hsingle.
  rewrite (getMultipleComponents_present host _ _ _ Hw).
  unfold resolveGroup. rewrite Hsingle. split; [done|].
  rewrite getComponentByRef_decision in Hsingle.
  unfold resolve_by_decision_order in Hsingle.
  assert (Hdec : exists v, single = decorate v).
  { destruct (isValidElementType host (get (defaultOrSelf entry) "default"));
      [injection Hsingle as <-; eauto|].
    destruct (isValidElementType host (defaultOrSelf entry));
      [injection Hsingle as <-; eauto|done]. }
  split; [done|].
  destruct Hdec as [v ->]. intros component extraProps. discriminate.
Qed.

Lemma getMultipleComponents_single_candidate_witness :
  getMultipleComponents reactIs
    {[ "MagdaPluginComponentExtraVisualisationSection" := GalleryPlugin ]}
    "ExtraVisualisationSection"
  = Some [decorate GalleryPlugin].
Proof.
  apply (getMultipleComponents_single_candidate reactIs _
           "ExtraVisualisationSection" GalleryPlugin (decorate GalleryPlugin)).
  - run.
  - reflexivity.
Defined.

(** C4 as stated fails: a function component with a truthy, non-renderable
    [default] property materializes through the single-candidate path, yet
    the multi-slot resolver hands on the [default] property and returns
    nothing. *)
Lemma getMultipleComponents_single_candidate_counterexample :
  getComponentByRef reactIs PluginWithBadDefault
    = Some (decorate PluginWithBadDefault)
  /\ getMultipleComponents reactIs
       {[ "MagdaPluginComponentExtraVisualisationSection"
          := PluginWithBadDefault ]}
       "ExtraVisualisationSection"
     = None.
Proof. split; run. Qed.

(** C5: a registry entry that is not an object and not a renderable makes
    the multi-slot resolver return nothing.  Functions are never such
    entries, since the host's check accepts every function. *)
Theorem getMultipleComponents_malformed_container (host : value -> bool)
    (window : gmap string value) (name : string) (entry : value) :
  (forall f, typeof f = "function" -> host f = true) ->
  window !! (PREFIX +:+ name) = Some entry ->
  typeof entry <> "object" ->
  isValidElementType host entry = false ->
  getMultipleComponents host window name = None.
Proof.
  intros Hfun Hw Hty Hinv.
  rewrite (getMultipleComponents_present host _ _ _ Hw).
  assert (Hprim : own_entries entry = []).
  { destruct entry; try done.
    rewrite isValidElementType_eq, (Hfun (VFunction name0 own)) in Hinv;
      done. }
  assert (Hdef : get entry "default" = VUndefined)
    by (unfold get; by rewrite Hprim).
  unfold defaultOrSelf. rewrite Hdef. simpl.
  unfold resolveGroup.
  rewrite (proj2 (getComponentByRef_None host entry))
    by (rewrite Hdef; split; [by apply isValidElementType_falsy|done]).
  apply String.eqb_neq in Hty. by rewrite Hty.
Qed.

Lemma getMultipleComponents_malformed_container_witness :
  getMultipleComponents reactIs
    {[ "MagdaPluginComponentExtraVisualisationSection" := VNumber 42 ]}
    "ExtraVisualisationSection" = None
  /\ getMultipleComponents reactIs
       {[ "MagdaPluginComponentExtraVisualisationSection"
          := VString "gallery" ]}
       "ExtraVisualisationSection" = None.
Proof.
  split.
  - apply (getMultipleComponents_malformed_container reactIs _
             "ExtraVisualisationSection" (VNumber 42)).
    + by intros [].
    + run.
    + discriminate.
    + reflexivity.
  - apply (getMultipleComponents_malformed_container reactIs _
             "ExtraVisualisationSection" (VString "gallery")).
    + by intros [].
    + run.
    + discriminate.
    + reflexivity.
Defined.

(** ** The single-slot resolver *)

(** C2 (amended): the single-slot resolver first replaces a present entry by
    its [default] property whenever that property is truthy, valid or not,
    and follows the decision order on the value so chosen.  An entry with no
    truthy [default] resolves to itself when valid and to nothing otherwise;
    an entry with a valid [default] resolves to that default unless the
    default exposes a valid default of its own; an entry with a truthy,
    invalid [default] that exposes no valid default of its own resolves to
    nothing, whether or not the entry itself is valid. *)
Theorem getComponent_decision_order (host : value -> bool)
    (window : gmap string value) (name : string) (entry : value) :
  window !! (PREFIX +:+ name) = Some entry ->
  getComponent host window name
    = resolve_by_decision_order host (defaultOrSelf entry)
  /\ (truthy (get entry "default") = false ->
      getComponent host window name
      = if isValidElementType host entry then Some (decorate entry) else None)
  /\ (isValidElementType host (get entry "default") = true ->
      isValidElementType host (get (get entry "default") "default") = false ->
      getComponent host window name = Some (decorate (get entry "default")))
  /\ (truthy (get entry "default") = true ->
      isValidElementType host (get entry "default") = false ->
      isValidElementType host (get (get entry "default") "default") = false ->
      getComponent host window name = None).
Proof.
  intros Hw.
  rewrite (getComponent_present host _ _ _ Hw), getComponentByRef_decision.
  split; [done|].
  unfold resolve_by_decision_order, defaultOrSelf.
  repeat split.
  - intros Hd. rewrite Hd.
    by rewrite (isValidElementType_falsy host _ Hd).
  - intros Hd Hdd. rewrite (isValidElementType_truthy host _ Hd).
    by rewrite Hdd, Hd.
  - intros Ht Hd Hdd. by rewrite Ht, Hdd, Hd.
Qed.

Lemma getComponent_decision_order_witness :
  getComponent reactIs
    {[ "MagdaPluginComponentHeader" := VObject [("default", HeaderPlugin)] ]}
    "Header" = Some (decorate HeaderPlugin)
  /\ getComponent reactIs
       {[ "MagdaPluginComponentHeader" := PluginWithBadDefault ]}
       "Header" = None.
Proof.
  split.
  - apply (getComponent_decision_order reactIs _ "Header"
             (VObject [("default", HeaderPlugin)])).
    + run.
    + reflexivity.
    + reflexivity.
  - apply (getComponent_decision_order reactIs _ "Header"
             PluginWithBadDefault).
    + run.
    + reflexivity.
    + reflexivity.
    + reflexivity.
Defined.

(** C2 as stated fails: an entry that is itself a valid renderable and
    carries a truthy, invalid [default] property resolves to nothing, where
    the decision order applied to the entry gives the entry itself. *)
Lemma getComponent_decision_order_counterexample :
  isValidElementType reactIs PluginWithBadDefault = true
  /\ truthy (get PluginWithBadDefault "default") = true
  /\ isValidElementType reactIs (get PluginWithBadDefault "default") = false
  /\ resolve_by_decision_order reactIs PluginWithBadDefault
     = Some (decorate PluginWithBadDefault)
  /\ getComponent reactIs
       {[ "MagdaPluginComponentHeader" := PluginWithBadDefault ]} "Header"
     = None.
Proof. repeat split; run. Qed.

(** ** Default-unwrap transparency *)







(** ** Slots are independent *)

Lemma slot_key_ne (name other : string) :
  other <> name -> PREFIX +:+ other <> PREFIX +:+ name.
Proof. intros Hne Heq. apply Hne. by apply (inj (String.app PREFIX)). Qed.

(** X1: both resolvers look at the global of their own slot only: writing
    any value to the global of another slot leaves their results as they
    were. *)
Theorem resolvers_ignore_other_slots (host : value -> bool)
    (window : gmap string value) (name other : string) (v : value) :
  other <> name ->
  getComponent host (<[PREFIX +:+ other := v]> window) name
    = getComponent host window name
  /\ getMultipleComponents host (<[PREFIX +:+ other := v]> window) name
     = getMultipleComponents host window name.
Proof.
  intros Hne. apply slot_key_ne in Hne.
  unfold getComponent, getMultipleComponents, window_get.
  by rewrite !lookup_insert_ne.
Qed.

Lemma resolvers_ignore_other_slots_witness :
  getComponent reactIs
    (<[PREFIX +:+ "Footer" := MapPlugin]>
       {[ "MagdaPluginComponentHeader" := HeaderPlugin ]}) "Header"
  = getComponent reactIs {[ "MagdaPluginComponentHeader" := HeaderPlugin ]}
      "Header".
Proof.
  apply (resolvers_ignore_other_slots reactIs
           {[ "MagdaPluginComponentHeader" := HeaderPlugin ]}
           "Header" "Footer" MapPlugin).
  discriminate.
Defined.

(** X2: each of the five typed accessors is determined by its own global
    variable: a write to any other key of the global scope does not change
    what it returns. *)
Theorem accessors_read_own_global (host : value -> bool)
    (window : gmap string value) (key : string) (v : value) :
  (key <> "MagdaPluginComponentHeader" ->
     getPluginHeader host (<[key := v]> window)
     = getPluginHeader host window)
  /\ (key <> "MagdaPluginComponentFooter" ->
      getPluginFooter host (<[key := v]> window)
      = getPluginFooter host window)
  /\ (key <> "MagdaPluginComponentDatasetEditButton" ->
      getPluginDatasetEditButton host (<[key := v]> window)
      = getPluginDatasetEditButton host window)
  /\ (key <> "MagdaPluginComponentDatasetLikeButton" ->
      getPluginDatasetLikeButton host (<[key := v]> window)
      = getPluginDatasetLikeButton host window)
  /\ (key <> "MagdaPluginComponentExtraVisualisationSection" ->
      getPluginExtraVisualisationSections host (<[key := v]> window)
      = getPluginExtraVisualisationSections host window).
Proof.
  unfold getPluginHeader, getPluginFooter, getPluginDatasetEditButton,
    getPluginDatasetLikeButton, getPluginExtraVisualisationSections,
    getComponent, getMultipleComponents, window_get.
  repeat split; intros Hne;
    by rewrite !(lookup_insert_ne window key _ v Hne).
Qed.

Lemma accessors_read_own_global_witness :
  getPluginFooter reactIs
    (<["MagdaPluginComponentHeader" := HeaderPlugin]> ∅)
  = getPluginFooter reactIs ∅.
Proof.
  apply (accessors_read_own_global reactIs ∅
           "MagdaPluginComponentHeader" HeaderPlugin).
  discriminate.
Defined.

(** ** What the materializer lets through *)

(** X3: whatever [getComponentByRef] returns is the decoration of a value
    that passed [isValidElementType] (so truthy, not a string, accepted by
    the host check), and that value is the [default] property of the
    reference or, only when that property is not valid, the reference
    itself. *)
Theorem getComponentByRef_sound (host : value -> bool) (componentRef : value)
    (c : ComponentType) :
  getComponentByRef host componentRef = Some c ->
  exists u,
    c = decorate u
    /\ isValidElementType host u = true
    /\ truthy u = true /\ typeof u <> "string" /\ host u = true
    /\ (u = get componentRef "default"
        \/ (u = componentRef
            /\ isValidElementType host (get componentRef "default") = false)).
Proof.
  rewrite getComponentByRef_decision. unfold resolve_by_decision_order.
  assert (Hfacts : forall u, isValidElementType host u = true ->
    isValidElementType host u = true
    /\ truthy u = true /\ typeof u <> "string" /\ host u = true).
  { intros u Hu. split; [done|]. rewrite isValidElementType_eq in Hu.
    apply andb_prop in Hu as [Hu Hh]. apply andb_prop in Hu as [Ht Hs].
    repeat split; [done| |done]. intros Heq. by rewrite Heq in Hs. }
  destruct (isValidElementType host (get componentRef "default")) eqn:Hd.
  - intros [= <-]. exists (get componentRef "default").
    split; [done|]. destruct (Hfacts _ Hd) as (? & ? & ? & ?). eauto 10.
  - destruct (isValidElementType host componentRef) eqn:Hs; [|done].
    intros [= <-]. exists componentRef.
    split; [done|]. destruct (Hfacts _ Hs) as (? & ? & ? & ?). eauto 10.
Qed.

Lemma getComponentByRef_sound_witness :
  exists u,
    decorate HeaderPlugin = decorate u
    /\ isValidElementType reactIs u = true
    /\ truthy u = true /\ typeof u <> "string" /\ reactIs u = true
    /\ (u = get (VObject [("default", HeaderPlugin)]) "default"
        \/ (u = VObject [("default", HeaderPlugin)]
            /\ isValidElementType reactIs
                 (get (VObject [("default", HeaderPlugin)]) "default")
               = false)).
Proof.
  apply (getComponentByRef_sound reactIs
           (VObject [("default", HeaderPlugin)]) (decorate HeaderPlugin)).
  reflexivity.
Defined.

(** X4: whatever the single-slot resolver returns is the decoration of a
    validated value found at most two [default] steps below the registry
    entry: the entry, its [default], or the [default] of its [default]. *)
Theorem getComponent_sound (host : value -> bool)
    (window : gmap string value) (name : string) (c : ComponentType) :
  getComponent host window name = Some c ->
  exists entry u,
    window !! (PREFIX +:+ name) = Some entry
    /\ c = decorate u
    /\ isValidElementType host u = true
    /\ (u = entry \/ u = get entry "default"
        \/ u = get (get entry "default") "default").
Proof.
  destruct (window !! (PREFIX +:+ name)) as [entry|] eqn:Hw.
  - rewrite (getComponent_present host _ _ _ Hw).
    rewrite getComponentByRef_decision.
    unfold resolve_by_decision_order, defaultOrSelf.
    intros Hc. exists entry.
    destruct (truthy (get entry "default")) eqn:Ht.
    + destruct (isValidElementType host
                  (get (get entry "default") "default")) eqn:Hdd.
      { injection Hc as <-. eauto 10. }
      destruct (isValidElementType host (get entry "default")) eqn:Hd;
        [|done].
      injection Hc as <-. eauto 10.
    + destruct (isValidElementType host (get entry "default")) eqn:Hd.
      { injection Hc as <-. eauto 10. }
      destruct (isValidElementType host entry) eqn:He; [|done].
      injection Hc as <-. eauto 10.
  - unfold getComponent, window_get. by rewrite Hw.
Qed.

Lemma getComponent_sound_witness :
  exists entry u,
    ({[ "MagdaPluginComponentHeader" := HeaderPlugin ]} : gmap string value)
      !! (PREFIX +:+ "Header") = Some entry
    /\ decorate HeaderPlugin = decorate u
    /\ isValidElementType reactIs u = true
    /\ (u = entry \/ u = get entry "default"
        \/ u = get (get entry "default") "default").
Proof.
  apply (getComponent_sound reactIs
           {[ "MagdaPluginComponentHeader" := HeaderPlugin ]} "Header"
           (decorate HeaderPlugin)).
  run.
Defined.

(** X5: the [default] property is unwrapped twice.  When the entry's
    [default] is truthy and exposes a valid [default] of its own, both
    resolvers resolve to that inner value, whatever the validity of the
    entry and of its [default]. *)
Theorem default_is_unwrapped_twice (host : value -> bool)
    (window : gmap string value) (name : string) (entry : value) :
  window !! (PREFIX +:+ name) = Some entry ->
  truthy (get entry "default") = true ->
  isValidElementType host (get (get entry "default") "default") = true ->
  getComponent host window name
    = Some (decorate (get (get entry "default") "default"))
  /\ getMultipleComponents host window name
     = Some [decorate (get (get entry "default") "default")].
Proof.
  intros Hw Ht Hdd.
  rewrite (getComponent_present host _ _ _ Hw).
  rewrite (getMultipleComponents_present host _ _ _ Hw).
  unfold resolveGroup, defaultOrSelf. rewrite Ht.
  rewrite getComponentByRef_decision. unfold resolve_by_decision_order.
  by rewrite Hdd.
Qed.

Lemma default_is_unwrapped_twice_witness :
  getComponent reactIs
    {[ "MagdaPluginComponentHeader"
       := VObject [("default", VObject [("default", HeaderPlugin)])] ]}
    "Header"
  = Some (decorate HeaderPlugin).
Proof.
  apply (default_is_unwrapped_twice reactIs
           {[ "MagdaPluginComponentHeader"
              := VObject [("default", VObject [("default", HeaderPlugin)])] ]}
           "Header"
           (VObject [("default", VObject [("default", HeaderPlugin)])])).
  - run.
  - reflexivity.
  - reflexivity.
Defined.

(** ** How the two resolvers relate *)

Lemma getComponentByRef_decorated (host : value -> bool) v c :
  getComponentByRef host v = Some c -> exists u, c = decorate u.
Proof.
  rewrite getComponentByRef_decision. unfold resolve_by_decision_order.
  destruct (isValidElementType host (get v "default")); [intros [= <-]; eauto|].
  destruct (isValidElementType host v); [intros [= <-]; eauto|done].
Qed.

(** X6: the single-slot resolver returns a unit exactly when the multi-slot
    resolver, asked for the same slot, returns the one-element sequence of
    that same plain decorated unit. *)
Theorem resolvers_agree_on_single_unit (host : value -> bool)
    (window : gmap string value) (name : string) (c : ComponentType) :
  getComponent host window name = Some c
  <-> getMultipleComponents host window name = Some [c]
      /\ exists u, c = decorate u.
Proof.
  destruct (window !! (PREFIX +:+ name)) as [entry|] eqn:Hw.
  - rewrite (getComponent_present host _ _ _ Hw).
    rewrite (getMultipleComponents_present host _ _ _ Hw).
    unfold resolveGroup.
    destruct (getComponentByRef host (defaultOrSelf entry)) as [c'|] eqn:Hc.
    + split.
      * intros [= <-]. split; [done|].
        by apply (getComponentByRef_decorated host (defaultOrSelf entry)).
      * by intros [[= <-] _].
    + split; [done|]. intros [Hres [u ->]].
      destruct (negb (String.eqb (typeof (defaultOrSelf entry)) "object"));
        [done|].
      destruct (length (Object_keys (defaultOrSelf entry)) =? 0)%nat; [done|].
      injection Hres as Hres.
      destruct (omap _ (Object_keys (defaultOrSelf entry))) as [|x [|y l]];
        done.
  - unfold getComponent, getMultipleComponents, window_get. rewrite Hw.
    simpl. split; [done|]. by intros [? _].
Qed.

Lemma resolvers_agree_on_single_unit_witness :
  getMultipleComponents reactIs
    {[ "MagdaPluginComponentHeader" := HeaderPlugin ]} "Header"
  = Some [decorate HeaderPlugin]
  /\ exists u, decorate HeaderPlugin = decorate u.
Proof.
  apply (resolvers_agree_on_single_unit reactIs
           {[ "MagdaPluginComponentHeader" := HeaderPlugin ]} "Header"
           (decorate HeaderPlugin)).
  run.
Defined.

(** X7: for a present entry, the multi-slot resolver returns nothing exactly
    when the single-slot resolver returns nothing and the value handed to
    the materializer is not of type object or has no own key.  In every
    other case it returns a sequence, possibly an empty one. *)
Theorem getMultipleComponents_None_iff (host : value -> bool)
    (window : gmap string value) (name : string) (entry : value) :
  window !! (PREFIX +:+ name) = Some entry ->
  getMultipleComponents host window name = None
  <-> getComponent host window name = None
      /\ (typeof (defaultOrSelf entry) <> "object"
          \/ Object_keys (defaultOrSelf entry) = []).
Proof.
  intros Hw.
  rewrite (getComponent_present host _ _ _ Hw).
  rewrite (getMultipleComponents_present host _ _ _ Hw).
  unfold resolveGroup.
  destruct (getComponentByRef host (defaultOrSelf entry)) as [c'|];
    [split; [done|by intros [? _]]|].
  destruct (String.eqb (typeof (defaultOrSelf entry)) "object") eqn:Hty;
    simpl.
  - apply String.eqb_eq in Hty.
    destruct (Object_keys (defaultOrSelf entry)) as [|k keys]; simpl.
    + split; [by eauto|done].
    + split; [done|]. by intros [_ [?|?]].
  - apply String.eqb_neq in Hty. split; [by eauto|done].
Qed.

Lemma getMultipleComponents_None_iff_witness :
  getComponent reactIs
    {[ "MagdaPluginComponentExtraVisualisationSection" := VNumber 7 ]}
    "ExtraVisualisationSection" = None
  /\ (typeof (defaultOrSelf (VNumber 7)) <> "object"
      \/ Object_keys (defaultOrSelf (VNumber 7)) = []).
Proof.
  apply (getMultipleComponents_None_iff reactIs
           {[ "MagdaPluginComponentExtraVisualisationSection" := VNumber 7 ]}
           "ExtraVisualisationSection" (VNumber 7)).
  - run.
  - run.
Defined.

(** ** The shape of a group *)

Lemma survivors_Forall2 {A B} (f : A -> option B) (l : list A) :
  Forall2 (fun x y => f x = Some y)
    (filter (fun x => is_Some (f x)) l) (omap f l).
Proof.
  induction l as [|x l IH]; simpl; [constructor|].
  rewrite filter_cons. destruct (f x) as [y|] eqn:Hx; simpl.
  - by constructor.
  - done.
Qed.

(** X8: when the single-slot path fails and the multi-slot resolver still
    returns a sequence, the value it enumerated is of type object, the
    sibling names are exactly its own keys whose member materializes, in
    enumeration order, and there is exactly one returned unit per sibling
    name, in the same order: the materialized member under that name,
    wrapped so that it renders with the whole sibling-name list as
    [loadedPluginNames]. *)
Theorem sibling_group_structure (host : value -> bool)
    (window : gmap string value) (name : string) (entry : value)
    (units : list ComponentType) :
  window !! (PREFIX +:+ name) = Some entry ->
  getComponent host window name = None ->
  getMultipleComponents host window name = Some units ->
  typeof (defaultOrSelf entry) = "object"
  /\ survivingKeys host (defaultOrSelf entry)
       `sublist_of` Object_keys (defaultOrSelf entry)
  /\ Forall2
       (fun key unit =>
          exists member,
            getComponentByRef host (get (defaultOrSelf entry) key)
              = Some member
            /\ unit
               = wrapComponentWithProps member
                   {[ "loadedPluginNames"
                      := string_array
                           (survivingKeys host (defaultOrSelf entry)) ]}
            /\ injectsSiblingNames unit member
                 (survivingKeys host (defaultOrSelf entry)))
       (survivingKeys host (defaultOrSelf entry)) units.
Proof.
  intros Hw.
  rewrite (getComponent_present host _ _ _ Hw).
  rewrite (getMultipleComponents_present host _ _ _ Hw).
  unfold resolveGroup. intros ->.
  destruct (String.eqb (typeof (defaultOrSelf entry)) "object") eqn:Hty;
    [|done].
  simpl. apply String.eqb_eq in Hty.
  destruct (length (Object_keys (defaultOrSelf entry)) =? 0)%nat; [done|].
  intros [= <-].
  split; [done|]. split; [apply sublist_filter|].
  apply Forall2_fmap_r.
  eapply Forall2_impl;
    [apply (survivors_Forall2
              (fun key =>
                 getComponentByRef host (get (defaultOrSelf entry) key)))|].
  intros key member Hmember. exists member.
  split; [done|]. split; [reflexivity|]. apply sibling_wrapper_injects.
Qed.

Lemma sibling_group_structure_witness :
  typeof (VObject [("a", GalleryPlugin); ("b", VString "oops");
                   ("c", MapPlugin)]) = "object"
  /\ ["a"; "c"] `sublist_of` ["a"; "b"; "c"]
  /\ Forall2
       (fun key unit =>
          exists member,
            getComponentByRef reactIs
              (get (VObject [("a", GalleryPlugin); ("b", VString "oops");
                             ("c", MapPlugin)]) key)
              = Some member
            /\ unit
               = wrapComponentWithProps member
                   {[ "loadedPluginNames" := string_array ["a"; "c"] ]}
            /\ injectsSiblingNames unit member ["a"; "c"])
       ["a"; "c"]
       [wrapComponentWithProps (decorate GalleryPlugin)
          {[ "loadedPluginNames" := string_array ["a"; "c"] ]};
        wrapComponentWithProps (decorate MapPlugin)
          {[ "loadedPluginNames" := string_array ["a"; "c"] ]}].
Proof.
  apply (sibling_group_structure reactIs
           {[ "MagdaPluginComponentExtraVisualisationSection"
              := VObject [("a", GalleryPlugin); ("b", VString "oops");
                          ("c", MapPlugin)] ]}
           "ExtraVisualisationSection"
           (VObject [("a", GalleryPlugin); ("b", VString "oops");
                     ("c", MapPlugin)])
           [wrapComponentWithProps (decorate GalleryPlugin)
              {[ "loadedPluginNames" := string_array ["a"; "c"] ]};
            wrapComponentWithProps (decorate MapPlugin)
              {[ "loadedPluginNames" := string_array ["a"; "c"] ]}]).
  - run.
  - run.
  - rewrite (getMultipleComponents_present reactIs
               {[ "MagdaPluginComponentExtraVisualisationSection"
                  := VObject [("a", GalleryPlugin); ("b", VString "oops");
                              ("c", MapPlugin)] ]}
               "ExtraVisualisationSection"
               (VObject [("a", GalleryPlugin); ("b", VString "oops");
                         ("c", MapPlugin)]))
      by run.
    reflexivity.
Defined.

(** X9: a hash with a single member, under a key other than [default], is
    a group of one: the member is returned wrapped with the sibling-name
    list of its own key alone, not as a plain decorated unit. *)
Theorem one_member_group (host : value -> bool)
    (window : gmap string value) (name key : string) (member : value)
    (unit_ : ComponentType) :
  window !! (PREFIX +:+ name) = Some (VObject [(key, member)]) ->
  key <> "default" ->
  isValidElementType host (VObject [(key, member)]) = false ->
  getComponentByRef host member = Some unit_ ->
  getMultipleComponents host window name
    = Some [wrapComponentWithProps unit_
              {[ "loadedPluginNames" := string_array [key] ]}]
  /\ getMultipleComponents host window name <> Some [unit_].
Proof.
  intros Hw Hkey Hself Hmember.
  assert (Hdef : get (VObject [(key, member)]) "default" = VUndefined).
  { unfold get. simpl. apply String.eqb_neq in Hkey. by rewrite Hkey. }
  assert (Hget : get (VObject [(key, member)]) key = member).
  { unfold get. simpl. by rewrite String.eqb_refl. }
  rewrite (getMultipleComponents_present host _ _ _ Hw).
  unfold defaultOrSelf. rewrite Hdef. simpl.
  rewrite resolveGroup_hash by (rewrite ?Hdef; done).
  change (Object_keys (VObject [(key, member)])) with [key].
  rewrite filter_cons, filter_nil. simpl omap.
  rewrite !Hget, Hmember. simpl.
  split; [done|].
  destruct (getComponentByRef_decorated host _ _ Hmember) as [u ->].
  discriminate.
Qed.

Lemma one_member_group_witness :
  getMultipleComponents reactIs
    {[ "MagdaPluginComponentExtraVisualisationSection"
       := VObject [("DAPImageGallery", GalleryPlugin)] ]}
    "ExtraVisualisationSection"
  = Some [wrapComponentWithProps (decorate GalleryPlugin)
            {[ "loadedPluginNames" := string_array ["DAPImageGallery"] ]}].
Proof.
  apply (one_member_group reactIs
           {[ "MagdaPluginComponentExtraVisualisationSection"
              := VObject [("DAPImageGallery", GalleryPlugin)] ]}
           "ExtraVisualisationSection" "DAPImageGallery" GalleryPlugin
           (decorate GalleryPlugin)).
  - run.
  - discriminate.
  - reflexivity.
  - reflexivity.
Defined.

(** ** Entries that are shadowed or never mounted *)

(** X10: once the entry has a truthy [default] property, nothing else of
    the entry is looked at: two entries with the same truthy [default]
    resolve identically in both resolvers, whatever other members they
    carry. *)
Theorem truthy_default_shadows_entry (host : value -> bool)
    (window1 window2 : gmap string value) (name : string)
    (entry1 entry2 : value) :
  window1 !! (PREFIX +:+ name) = Some entry1 ->
  window2 !! (PREFIX +:+ name) = Some entry2 ->
  truthy (get entry1 "default") = true ->
  get entry2 "default" = get entry1 "default" ->
  getComponent host window1 name = getComponent host window2 name
  /\ getMultipleComponents host window1 name
     = getMultipleComponents host window2 name.
Proof.
  intros Hw1 Hw2 Ht Heq.
  rewrite (getComponent_present host _ _ _ Hw1).
  rewrite (getComponent_present host _ _ _ Hw2).
  rewrite (getMultipleComponents_present host _ _ _ Hw1).
  rewrite (getMultipleComponents_present host _ _ _ Hw2).
  unfold defaultOrSelf. by rewrite Heq, Ht.
Qed.

Lemma truthy_default_shadows_entry_witness :
  getMultipleComponents reactIs
    {[ "MagdaPluginComponentExtraVisualisationSection"
       := VObject [("default", GalleryPlugin); ("map", MapPlugin)] ]}
    "ExtraVisualisationSection"
  = getMultipleComponents reactIs
      {[ "MagdaPluginComponentExtraVisualisationSection"
         := VObject [("default", GalleryPlugin)] ]}
      "ExtraVisualisationSection".
Proof.
  apply (truthy_default_shadows_entry reactIs
           {[ "MagdaPluginComponentExtraVisualisationSection"
              := VObject [("default", GalleryPlugin); ("map", MapPlugin)] ]}
           {[ "MagdaPluginComponentExtraVisualisationSection"
              := VObject [("default", GalleryPlugin)] ]}
           "ExtraVisualisationSection"
           (VObject [("default", GalleryPlugin); ("map", MapPlugin)])
           (VObject [("default", GalleryPlugin)])).
  - run.
  - run.
  - reflexivity.
  - reflexivity.
Defined.

(** X11: a populated global whose value is falsy ([0], the empty string,
    [false], [NaN], [null], [undefined]) or is a string resolves to nothing
    in both resolvers, whatever the host check thinks of it. *)
Theorem falsy_or_string_entry_resolves_to_nothing (host : value -> bool)
    (window : gmap string value) (name : string) (entry : value) :
  window !! (PREFIX +:+ name) = Some entry ->
  truthy entry = false \/ typeof entry = "string" ->
  getComponent host window name = None
  /\ getMultipleComponents host window name = None.
Proof.
  intros Hw Hentry.
  rewrite (getComponent_present host _ _ _ Hw).
  rewrite (getMultipleComponents_present host _ _ _ Hw).
  assert (Hown : own_entries entry = []).
  { destruct Hentry as [Hf|Hs]; by destruct entry. }
  assert (Hdef : get entry "default" = VUndefined)
    by (unfold get; by rewrite Hown).
  assert (Hinv : isValidElementType host entry = false).
  { rewrite isValidElementType_eq.
    destruct Hentry as [Hf|Hs]; [by rewrite Hf|].
    rewrite Hs. simpl. by rewrite andb_false_r. }
  assert (Hnone : getComponentByRef host entry = None).
  { apply getComponentByRef_None. rewrite Hdef. split; [|done].
    by apply isValidElementType_falsy. }
  unfold defaultOrSelf, resolveGroup. rewrite Hdef. simpl. rewrite Hnone.
  split; [done|].
  unfold Object_keys. rewrite Hown. simpl.
  by destruct (negb (String.eqb (typeof entry) "object")).
Qed.

Lemma falsy_or_string_entry_resolves_to_nothing_witness :
  getComponent reactIs {[ "MagdaPluginComponentHeader" := VString "div" ]}
    "Header" = None
  /\ getMultipleComponents reactIs
       {[ "MagdaPluginComponentHeader" := VString "div" ]} "Header" = None.
Proof.
  apply (falsy_or_string_entry_resolves_to_nothing reactIs
           {[ "MagdaPluginComponentHeader" := VString "div" ]} "Header"
           (VString "div")).
  - run.
  - right. reflexivity.
Defined.

(** X12: the materializer returns nothing exactly when neither the
    reference nor its [default] property passes the element validator. *)
Theorem getComponentByRef_materializes_iff (host : value -> bool)
    (componentRef : value) :
  is_Some (getComponentByRef host componentRef)
  <-> isValidElementType host componentRef = true
      \/ isValidElementType host (get componentRef "default") = true.
Proof.
  rewrite getComponentByRef_decision. unfold resolve_by_decision_order.
  destruct (isValidElementType host (get componentRef "default")).
  - split; eauto.
  - destruct (isValidElementType host componentRef).
    + split; eauto.
    + split; [by intros [? ?]|by intros [?|?]].
Qed.

Lemma getComponentByRef_materializes_iff_witness :
  is_Some (getComponentByRef reactIs PluginWithBadDefault).
Proof.
  apply (getComponentByRef_materializes_iff reactIs PluginWithBadDefault).
  left. reflexivity.
Defined.

(** ** Arrays as groups *)

Lemma pretty_N_go_ne_d x : forall s,
  (forall t, s <> String "d"%char t) ->
  forall t, pretty_N_go x s <> String "d"%char t.
Proof.
  induction (N.lt_wf_0 x) as [x _ IH]; intros s Hs t.
  assert (x = 0 \/ 0 < x)%N as [->|Hpos] by lia.
  - rewrite pretty_N_go_0. apply Hs.
  - rewrite pretty_N_go_step by done. apply IH.
    + by apply N.div_lt.
    + intros t'. unfold pretty_N_char. by repeat case_match.
Qed.

Lemma pretty_nat_ne_default (i : nat) : pretty i <> "default".
Proof.
  unfold pretty, pretty_nat, pretty, pretty_N.
  case_decide; [done|]. by apply pretty_N_go_ne_d.
Qed.

Lemma assoc_indexed (l : list value) : forall (g : nat -> string) i,
  Inj (=) (=) g ->
  assoc (g i) (imap (fun j x => (g j, x)) l) = l !! i.
Proof.
  induction l as [|x l IH]; intros g i Hg; [done|].
  rewrite imap_cons. simpl. destruct i as [|i].
  - by rewrite String.eqb_refl.
  - assert (Hne : String.eqb (g 0) (g (S i)) = false).
    { apply String.eqb_neq. intros Heq. by apply Hg in Heq. }
    rewrite Hne. apply (IH (g ∘ S)).
    intros a b Hab. apply Hg in Hab. by injection Hab.
Qed.

Lemma assoc_not_key key (o : list (string * value)) :
  key ∉ o.*1 -> assoc key o = None.
Proof.
  induction o as [|[k v] o IH]; [done|]. simpl. intros Hnot.
  apply not_elem_of_cons in Hnot as [Hne Hnot].
  assert (Hk : String.eqb k key = false) by (by apply String.eqb_neq).
  rewrite Hk. by apply IH.
Qed.

Lemma array_keys (elems : list value) :
  Object_keys (VArray elems) = pretty <$> seq 0 (length elems).
Proof.
  unfold Object_keys. simpl. rewrite fmap_imap.
  by rewrite <- (imap_seq_0 elems (pretty : nat -> string)).
Qed.

Lemma array_get_index (elems : list value) i :
  get (VArray elems) (pretty i) = default VUndefined (elems !! i).
Proof. unfold get. simpl. by rewrite (assoc_indexed elems pretty i _). Qed.

Lemma array_get_default (elems : list value) :
  get (VArray elems) "default" = VUndefined.
Proof.
  unfold get. rewrite assoc_not_key; [done|].
  change ((own_entries (VArray elems)).*1) with (Object_keys (VArray elems)).
  rewrite array_keys. intros Hin.
  apply list_elem_of_fmap in Hin as (i & Hi & _).
  by apply (pretty_nat_ne_default i).
Qed.

Lemma omap_fmap_compose {A B C} (f : B -> option C) (g : A -> B)
    (l : list A) :
  omap f (g <$> l) = omap (f ∘ g) l.
Proof.
  induction l as [|x l IH]; [done|]. csimpl. by rewrite IH.
Qed.

Lemma filter_fmap_compose {A B} (P : B -> Prop) `{!forall y, Decision (P y)}
    (g : A -> B) (l : list A) :
  filter P (g <$> l) = g <$> filter (P ∘ g) l.
Proof.
  induction l as [|x l IH]; [done|]. csimpl. rewrite !filter_cons. simpl.
  rewrite IH. by destruct (decide (P (g x))).
Qed.

Lemma omap_lookup_seq {B} (h : value -> option B) (l : list value) :
  forall pre : list value,
    omap (fun i => h (default VUndefined ((pre ++ l)%list !! i)))
         (seq (length pre) (length l))
    = omap h l.
Proof.
  induction l as [|x l IH]; intros pre; [done|]. csimpl.
  rewrite list_lookup_middle by done. csimpl.
  specialize (IH (pre ++ [x])%list).
  rewrite length_app, Nat.add_1_r, <- app_assoc in IH. simpl in IH.
  by rewrite IH.
Qed.

(** X14: an exported array that is not itself a renderable is enumerated
    like a hash keyed by its indices: the materialized elements are
    returned in index order, and each is wrapped with the decimal indices
    of the surviving elements as its sibling names. *)
Theorem array_export_is_indexed_group (host : value -> bool)
    (window : gmap string value) (name : string) (elems : list value) :
  window !! (PREFIX +:+ name) = Some (VArray elems) ->
  elems <> [] ->
  isValidElementType host (VArray elems) = false ->
  getMultipleComponents host window name
  = Some
      (map (fun member =>
              wrapComponentWithProps member
                {[ "loadedPluginNames"
                   := string_array
                        (pretty <$>
                           filter (fun i =>
                               is_Some (elems !! i
                                          ≫= getComponentByRef host))
                             (seq 0 (length elems))) ]})
           (omap (getComponentByRef host) elems)).
Proof.
  intros Hw Hne Hself.
  rewrite (getMultipleComponents_present host _ _ _ Hw).
  unfold defaultOrSelf. rewrite array_get_default. simpl.
  rewrite resolveGroup_hash; first last.
  - rewrite array_get_default. by apply isValidElementType_falsy.
  - done.
  - rewrite array_keys. by destruct elems.
  - done.
  - rewrite array_keys, omap_fmap_compose, filter_fmap_compose.
    assert (Hmembers :
      omap ((fun key => getComponentByRef host (get (VArray elems) key))
              ∘ pretty) (seq 0 (length elems))
      = omap (getComponentByRef host) elems).
    { rewrite <- (omap_lookup_seq (getComponentByRef host) elems []).
      apply list_omap_ext, Forall2_same_length_lookup_2; [done|].
      intros i a b Ha Hb. simpl in Ha, Hb. rewrite Ha in Hb.
      injection Hb as <-. simpl. by rewrite array_get_index. }
    assert (Hnames :
      filter ((fun key =>
                 is_Some (getComponentByRef host (get (VArray elems) key)))
                ∘ pretty) (seq 0 (length elems))
      = filter (fun i => is_Some (elems !! i ≫= getComponentByRef host))
          (seq 0 (length elems))).
    { apply list_filter_iff. intros i. simpl. rewrite array_get_index.
      destruct (elems !! i) as [x|]; simpl; [done|].
      rewrite getComponentByRef_falsy by done. done. }
    unfold siblingProps. by rewrite Hmembers, Hnames.
Qed.

Lemma array_export_is_indexed_group_witness :
  getMultipleComponents reactIs
    {[ "MagdaPluginComponentExtraVisualisationSection"
       := VArray [GalleryPlugin; VNumber 1; MapPlugin] ]}
    "ExtraVisualisationSection"
  = Some [wrapComponentWithProps (decorate GalleryPlugin)
            {[ "loadedPluginNames" := string_array ["0"; "2"] ]};
          wrapComponentWithProps (decorate MapPlugin)
            {[ "loadedPluginNames" := string_array ["0"; "2"] ]}].
Proof.
  apply (array_export_is_indexed_group reactIs
           {[ "MagdaPluginComponentExtraVisualisationSection"
              := VArray [GalleryPlugin; VNumber 1; MapPlugin] ]}
           "ExtraVisualisationSection"
           [GalleryPlugin; VNumber 1; MapPlugin]).
  - run.
  - discriminate.
  - reflexivity.
Defined.

(** ** The empty group *)

Lemma omap_nil_inv {A B} (f : A -> option B) (l : list A) :
  omap f l = [] -> forall x, x ∈ l -> f x = None.
Proof.
  induction l as [|y l IH]; intros Hnil x Hx; [by apply elem_of_nil in Hx|].
  csimpl in Hnil. destruct (f y) eqn:Hy; [done|].
  apply elem_of_cons in Hx as [->|Hx]; [done|]. by apply IH.
Qed.

(** X15: for a present entry, the multi-slot resolver returns the empty
    sequence exactly when the value it hands on does not materialize, is of
    type object, has at least one own key, and none of its members
    materializes. *)
Theorem getMultipleComponents_empty_iff (host : value -> bool)
    (window : gmap string value) (name : string) (entry : value) :
  window !! (PREFIX +:+ name) = Some entry ->
  getMultipleComponents host window name = Some []
  <-> getComponentByRef host (defaultOrSelf entry) = None
      /\ typeof (defaultOrSelf entry) = "object"
      /\ Object_keys (defaultOrSelf entry) <> []
      /\ forall key, key ∈ Object_keys (defaultOrSelf entry) ->
           getComponentByRef host (get (defaultOrSelf entry) key) = None.
Proof.
  intros Hw.
  rewrite (getMultipleComponents_present host _ _ _ Hw).
  unfold resolveGroup.
  destruct (getComponentByRef host (defaultOrSelf entry)) as [c|];
    [split; [done|by intros [? _]]|].
  destruct (String.eqb (typeof (defaultOrSelf entry)) "object") eqn:Hty;
    simpl.
  - apply String.eqb_eq in Hty.
    destruct (Object_keys (defaultOrSelf entry)) as [|k keys] eqn:Hkeys.
    + simpl. split; [done|]. by intros (_ & _ & ? & _).
    + change (length (k :: keys) =? 0)%nat with false. cbv iota.
      split.
      * intros [= Hmap]. apply map_eq_nil in Hmap.
        repeat split; [done..|]. by apply omap_nil_inv.
      * intros (_ & _ & _ & Hall).
        by rewrite (omap_all_None _ _ Hall).
  - apply String.eqb_neq in Hty. split; [done|]. by intros (_ & ? & _).
Qed.

Lemma getMultipleComponents_empty_iff_witness :
  getComponentByRef reactIs (defaultOrSelf (VObject [("a", VNumber 5)]))
    = None
  /\ typeof (defaultOrSelf (VObject [("a", VNumber 5)])) = "object"
  /\ Object_keys (defaultOrSelf (VObject [("a", VNumber 5)])) <> []
  /\ forall key,
       key ∈ Object_keys (defaultOrSelf (VObject [("a", VNumber 5)])) ->
       getComponentByRef reactIs
         (get (defaultOrSelf (VObject [("a", VNumber 5)])) key) = None.
Proof.
  apply (getMultipleComponents_empty_iff reactIs
           {[ "MagdaPluginComponentExtraVisualisationSection"
              := VObject [("a", VNumber 5)] ]}
           "ExtraVisualisationSection" (VObject [("a", VNumber 5)])).
  - run.
  - run.
Defined.
